(** * scripts/analyze_logs.py: the RAG stack ingestion script

    A shallow embedding of the script and the properties of its
    specification.  The script reads two environment variables when the
    module is loaded, derives the Firestore collection path from one of
    them, opens a Firestore client and ingests a fixed batch of one log
    entry, printing a banner, one line per entry and a summary.

    Python objects are carried by [PyVal]; dictionaries keep their insertion
    order, so they are association lists.  A function body runs in the
    monad [M]: it threads the [World] (clock readings taken, lines printed,
    document references built, documents in the store) and may raise.  What
    the interpreter and the Firestore library decide (the clock, the
    environment, whether the import and the client construction succeed,
    how a container is formatted) is given by a [Runtime]; what the client
    answers when it is asked for a document or told to write one is given
    by a [Db].

    Free names of a function body that the module binds by an import or an
    assignment are resolved when they are evaluated, in the module
    namespace [module_globals]; a name bound inside one function is local
    to it. *)

From stdpp Require Import gmap strings list pretty.
From Stdlib Require Import ZArith Ascii.

Set Warnings "-register-all".

Local Open Scope Z_scope.

(** ** Python values *)

(** A float is carried by the text [repr] gives for it: the script never
    computes with a float, it copies and formats them. *)
Inductive PyVal : Type :=
| PNone
| PBool (b : bool)
| PInt (z : Z)
| PFloat (repr : string)
| PStr (s : string)
| PList (xs : list PyVal)
| PDict (items : list (string * PyVal))
| PModule (name : string)
| PClass (name : string)
| PFunction (name : string)
| PServerTimestamp.

(** [dict]: string keys, insertion order kept. *)
Abbreviation Dict := (list (string * PyVal)).

(** [d.get(key)] *)
Fixpoint dict_get (d : Dict) (key : string) : option PyVal :=
  match d with
  | [] => None
  | (k, v) :: rest => if decide (k = key) then Some v else dict_get rest key
  end.

(** [d.get(key, default)] *)
Definition dict_get_default (d : Dict) (key : string) (default : PyVal) : PyVal :=
  match dict_get d key with
  | Some v => v
  | None => default
  end.

(** [key in d] *)
Definition dict_contains (d : Dict) (key : string) : bool :=
  match dict_get d key with
  | Some _ => true
  | None => false
  end.

(** [d[key] = value]: an existing key keeps its position, a new one goes last. *)
Fixpoint dict_setitem (d : Dict) (key : string) (value : PyVal) : Dict :=
  match d with
  | [] => [(key, value)]
  | (k, v) :: rest =>
      if decide (k = key) then (k, value) :: rest
      else (k, v) :: dict_setitem rest key value
  end.

(** [list(d.keys())] *)
Definition dict_keys (d : Dict) : list string := d.*1.

(** ** Exceptions *)

(** The classes the script tells apart: [ImportError] and the other
    subclasses of [Exception] on one side, [SystemExit] (what [sys.exit]
    raises, a [BaseException] only) on the other. *)
Inductive Exn : Type :=
| ImportError (msg : string)
| NameError (name : string)
| AttributeError (msg : string)
| OtherException (class msg : string)
| SystemExit (code : Z).

(** [isinstance(e, ImportError)] *)
Definition is_ImportError (e : Exn) : bool :=
  match e with
  | ImportError _ => true
  | _ => false
  end.

(** [isinstance(e, Exception)] *)
Definition is_Exception (e : Exn) : bool :=
  match e with
  | SystemExit _ => false
  | _ => true
  end.

(** [str(e)] *)
Definition exc_str (e : Exn) : string :=
  match e with
  | ImportError msg => msg
  | NameError name => "name '" +:+ name +:+ "' is not defined"
  | AttributeError msg => msg
  | OtherException _ msg => msg
  | SystemExit code => pretty code
  end.

Inductive Outcome (A : Type) : Type :=
| Ok (a : A)
| Raise (e : Exn).
Arguments Ok {A} a.
Arguments Raise {A} e.

(** ** The world outside the script *)

(** A reading of [datetime.now()]: the text of its [timestamp()] (a float)
    and its [isoformat()]. *)
Record Datetime : Type := {
  dt_timestamp : string;
  dt_isoformat : string;
}.

(** [db.collection(path).document(id)] *)
Record DocRef : Type := {
  ref_collection : PyVal;
  ref_id : PyVal;
}.

Record World : Type := {
  w_ticks : nat;
  w_stdout : list string;
  w_refs : list DocRef;
  w_store : gmap string Dict;
}.

(** One more clock reading taken. *)
Definition tick (w : World) : World :=
  {| w_ticks := S (w_ticks w); w_stdout := w_stdout w;
     w_refs := w_refs w; w_store := w_store w |}.

(** One more line on the console. *)
Definition emit (line : string) (w : World) : World :=
  {| w_ticks := w_ticks w; w_stdout := w_stdout w ++ [line];
     w_refs := w_refs w; w_store := w_store w |}.

(** One more document reference built. *)
Definition note_ref (doc_ref : DocRef) (w : World) : World :=
  {| w_ticks := w_ticks w; w_stdout := w_stdout w;
     w_refs := w_refs w ++ [doc_ref]; w_store := w_store w |}.

(** The documents of the store replaced. *)
Definition put_store (store : gmap string Dict) (w : World) : World :=
  {| w_ticks := w_ticks w; w_stdout := w_stdout w;
     w_refs := w_refs w; w_store := store |}.

(** What the client answers when it is asked for a document: the
    reference it built, or a refusal of the path, an Exception of the class
    and with the text given (the Firestore client raises ValueError and
    TypeError). *)
Inductive Addressed : Type :=
| Built (doc_ref : DocRef)
| Refused (class msg : string).

(** The Firestore client, as far as the script uses it.
    [db.collection(path).document(id)] is answered on the client side, in
    the world the client is asked in: the client checks the path and the
    identifier, and makes up an identifier of its own where it sees fit.
    [doc_ref.set(payload)] either raises or returns, and changes the
    documents of the store as it likes. *)
Record Db : Type := {
  db_document : PyVal -> PyVal -> World -> Addressed;
  db_set : DocRef -> Dict -> gmap string Dict -> Outcome unit * gmap string Dict;
}.

Record Runtime : Type := {
  rt_environ : gmap string string;
  rt_now : nat -> Datetime;
  rt_repr : PyVal -> string;
  rt_import_firestore : option Exn;
  rt_Client : Outcome Db;
}.

(** [str(v)], as an f-string formats a value; the text of a container or
    of an object of the interpreter is the runtime's. *)
Definition py_str (rt : Runtime) (v : PyVal) : string :=
  match v with
  | PNone => "None"
  | PBool true => "True"
  | PBool false => "False"
  | PInt z => pretty z
  | PFloat repr => repr
  | PStr s => s
  | _ => rt_repr rt v
  end.

(** ** Module level *)

(** [os.getenv(name, default)] *)
Definition getenv (environ : gmap string string) (name default : string) : string :=
  match environ !! name with
  | Some v => v
  | None => default
  end.

Definition APP_ID (environ : gmap string string) : string :=
  getenv environ "__app_id" "default-app-id".

Definition USER_ID (environ : gmap string string) : string :=
  getenv environ "USER_ID" "jasonbender-c3x".

Definition COLLECTION_PATH (environ : gmap string string) : string :=
  "artifacts/" +:+ APP_ID environ +:+ "/public/data/knowledge_buckets".

(** The namespace of the module once it is loaded: the three imports, the
    three assignments and the three function definitions. *)
Definition module_globals (environ : gmap string string) : gmap string PyVal :=
  list_to_map
    [ ("os", PModule "os");
      ("sys", PModule "sys");
      ("datetime", PClass "datetime.datetime");
      ("APP_ID", PStr (APP_ID environ));
      ("USER_ID", PStr (USER_ID environ));
      ("COLLECTION_PATH", PStr (COLLECTION_PATH environ));
      ("get_firestore_client", PFunction "get_firestore_client");
      ("ingest_log_entry", PFunction "ingest_log_entry");
      ("main", PFunction "main") ].

(** ** Effects *)

Definition M (A : Type) : Type := World -> Outcome A * World.

Definition ret {A : Type} (a : A) : M A := fun w => (Ok a, w).

Definition raise {A : Type} (e : Exn) : M A := fun w => (Raise e, w).

Definition bind {A B : Type} (m : M A) (k : A -> M B) : M B :=
  fun w =>
    match m w with
    | (Ok a, w') => k a w'
    | (Raise e, w') => (Raise e, w')
    end.

Declare Scope py_scope.
Delimit Scope py_scope with py.
Notation "x <- m ;; k" := (bind m (fun x => k))
  (at level 100, m at next level, right associativity) : py_scope.
Notation "m ;; k" := (bind m (fun _ => k))
  (at level 100, right associativity) : py_scope.
Local Open Scope py_scope.

(** [try: body / except ...: handler]: the handler runs in the world the
    body left when it raised, and decides by the class of the exception
    whether it takes it. *)
Definition try_except {A : Type} (body : M A) (handler : Exn -> M A) : M A :=
  fun w =>
    match body w with
    | (Ok a, w') => (Ok a, w')
    | (Raise e, w') => handler e w'
    end.

(** [print(line)] *)
Definition print (line : string) : M unit :=
  fun w => (Ok tt, emit line w).

(** A free name of a function body, looked up in the module namespace.
    Python would search the builtins next; none of the names looked up
    this way ([datetime], [sys], [firestore], [APP_ID], [USER_ID],
    [COLLECTION_PATH]) is a builtin. *)
Definition load_global (G : gmap string PyVal) (name : string) : M PyVal :=
  match G !! name with
  | Some v => ret v
  | None => raise (NameError name)
  end.

(** [datetime.now()]: the name [datetime] is the module's, the reading is
    the runtime's next one. *)
Definition datetime_now (G : gmap string PyVal) (rt : Runtime) : M Datetime :=
  cls <- load_global G "datetime" ;;
  match cls with
  | PClass "datetime.datetime" =>
      fun w => (Ok (rt_now rt (w_ticks w)), tick w)
  | _ => raise (AttributeError "now")
  end.

(** [sys.exit(code)] *)
Definition sys_exit {A : Type} (G : gmap string PyVal) (code : Z) : M A :=
  sys <- load_global G "sys" ;;
  match sys with
  | PModule "sys" => raise (SystemExit code)
  | _ => raise (AttributeError "exit")
  end.

(** [firestore.SERVER_TIMESTAMP], for the value [firestore] the name
    resolved to. *)
Definition SERVER_TIMESTAMP (firestore : PyVal) : M PyVal :=
  match firestore with
  | PModule "google.cloud.firestore" => ret PServerTimestamp
  | _ => raise (AttributeError "SERVER_TIMESTAMP")
  end.

(** [db.collection(path).document(id)]: the client builds the reference
    or refuses the path; nothing is sent. *)
Definition document (db : Db) (path id : PyVal) : M DocRef :=
  fun w =>
    match db_document db path id w with
    | Built doc_ref => (Ok doc_ref, note_ref doc_ref w)
    | Refused class msg => (Raise (OtherException class msg), w)
    end.

(** [doc_ref.set(payload)] *)
Definition set (db : Db) (doc_ref : DocRef) (payload : Dict) : M unit :=
  fun w =>
    let '(r, store) := db_set db doc_ref payload (w_store w) in
    (r, put_store store w).

(** ** get_firestore_client *)

(** [from google.cloud import firestore], inside the function: the name
    it binds is a local of [get_firestore_client]. *)
Definition import_firestore (rt : Runtime) : M PyVal :=
  match rt_import_firestore rt with
  | None => ret (PModule "google.cloud.firestore")
  | Some e => raise e
  end.

(** [firestore.Client()], on the local [firestore]. *)
Definition Client (rt : Runtime) (firestore : PyVal) : M Db :=
  match firestore with
  | PModule "google.cloud.firestore" =>
      match rt_Client rt with
      | Ok db => ret db
      | Raise e => raise e
      end
  | _ => raise (AttributeError "Client")
  end.

Definition get_firestore_client (G : gmap string PyVal) (rt : Runtime) : M Db :=
  try_except
    (firestore <- import_firestore rt ;;
     Client rt firestore)
    (fun e =>
       if is_ImportError e then
         print "ERROR: google-cloud-firestore not installed" ;;
         print "Run: pip install google-cloud-firestore" ;;
         sys_exit G 1
       else if is_Exception e then
         print ("ERROR: Failed to initialize Firestore client: " +:+ exc_str e) ;;
         sys_exit G 1
       else raise e).

(** ** ingest_log_entry *)

(** Line 42.  The default of [get] is an argument of the call: the clock is
    read whether or not the entry has the key. *)
Definition message_id_of (G : gmap string PyVal) (rt : Runtime)
    (entry_data : Dict) : M PyVal :=
  now <- datetime_now G rt ;;
  ret (dict_get_default entry_data "message_id"
         (PStr ("msg_" +:+ dt_timestamp now))).

(** Lines 48 to 60: the dictionary display, its values evaluated from top
    to bottom, then the optional [vector]. *)
Definition build_payload (G : gmap string PyVal) (rt : Runtime)
    (entry_data : Dict) (message_id : PyVal) : M Dict :=
  user_id <- load_global G "USER_ID" ;;
  app_id <- load_global G "APP_ID" ;;
  let content := dict_get_default entry_data "content" (PStr "") in
  let metadata := dict_get_default entry_data "metadata" (PDict []) in
  now <- datetime_now G rt ;;
  firestore <- load_global G "firestore" ;;
  indexed_at <- SERVER_TIMESTAMP firestore ;;
  let payload :=
    [ ("user_id", user_id);
      ("app_id", app_id);
      ("message_id", message_id);
      ("content", content);
      ("metadata", metadata);
      ("timestamp", PStr (dt_isoformat now));
      ("indexed_at", indexed_at) ] in
  ret (match dict_get entry_data "vector" with
       | Some vector => dict_setitem payload "vector" vector
       | None => payload
       end).

(** Lines 62 to 68: the write and the line it prints. *)
Definition write_payload (G : gmap string PyVal) (rt : Runtime) (db : Db)
    (doc_ref : DocRef) (message_id : PyVal) (payload : Dict) : M bool :=
  try_except
    (set db doc_ref payload ;;
     path <- load_global G "COLLECTION_PATH" ;;
     print ("✓ Ingested: " +:+ py_str rt message_id +:+ " to " +:+ py_str rt path) ;;
     ret true)
    (fun e =>
       if is_Exception e then
         print ("✗ Failed to ingest " +:+ py_str rt message_id +:+ ": " +:+ exc_str e) ;;
         ret false
       else raise e).

Definition ingest_log_entry (G : gmap string PyVal) (rt : Runtime) (db : Db)
    (entry_data : Dict) : M bool :=
  message_id <- message_id_of G rt entry_data ;;
  path <- load_global G "COLLECTION_PATH" ;;
  doc_ref <- document db path message_id ;;
  payload <- build_payload G rt entry_data message_id ;;
  write_payload G rt db doc_ref message_id payload.

(** ** main *)

Definition example_entries : list Dict :=
  [ [ ("message_id", PStr "example_001");
      ("content", PStr "Sample log entry for testing");
      ("metadata", PDict [("source", PStr "test"); ("type", PStr "example")]) ] ].

(** ["=" * 60] *)
Definition rule : string := String.concat "" (replicate 60 "=").

(** The [for] loop of lines 96 to 98, with [success_count] as accumulator. *)
Fixpoint ingest_each (G : gmap string PyVal) (rt : Runtime) (db : Db)
    (entries : list Dict) (success_count : nat) : M nat :=
  match entries with
  | [] => ret success_count
  | entry :: rest =>
      ok <- ingest_log_entry G rt db entry ;;
      ingest_each G rt db rest (if ok : bool then S success_count else success_count)
  end.

Definition main (G : gmap string PyVal) (rt : Runtime) : M unit :=
  print rule ;;
  print "RAG Stack Ingestion Script (V1.1)" ;;
  print rule ;;
  app_id <- load_global G "APP_ID" ;;
  print ("App ID: " +:+ py_str rt app_id) ;;
  user_id <- load_global G "USER_ID" ;;
  print ("User ID: " +:+ py_str rt user_id) ;;
  path <- load_global G "COLLECTION_PATH" ;;
  print ("Collection Path: " +:+ py_str rt path) ;;
  print rule ;;
  db <- get_firestore_client G rt ;;
  success_count <- ingest_each G rt db example_entries 0 ;;
  print rule ;;
  print ("Ingestion complete: " +:+ pretty success_count +:+ "/"
         +:+ pretty (length example_entries) +:+ " successful") ;;
  print rule.

(** ** The process *)

Record Process : Type := {
  exit_status : Z;
  uncaught : option Exn;
  final : World;
}.

Definition start (store : gmap string Dict) : World :=
  {| w_ticks := 0; w_stdout := []; w_refs := []; w_store := store |}.

(** The status the interpreter ends with on [SystemExit(code)]: the low
    eight bits of a code that fits a C long of 64 bits, 255 for a code
    that does not. *)
Definition exit_code (code : Z) : Z :=
  if decide (- 2 ^ 63 <= code < 2 ^ 63) then code `mod` 256 else 255.

(** [python3 analyze_logs.py]: the module is loaded, then [main()] runs.
    The interpreter ends with status 0 when [main] returns, with the code
    of a [SystemExit], and with status 1 and a traceback on any other
    exception. *)
Definition run_script (rt : Runtime) (store : gmap string Dict) : Process :=
  let G := module_globals (rt_environ rt) in
  match main G rt (start store) with
  | (Ok _, w) => {| exit_status := 0; uncaught := None; final := w |}
  | (Raise (SystemExit code), w) =>
      {| exit_status := exit_code code; uncaught := None; final := w |}
  | (Raise e, w) => {| exit_status := 1; uncaught := Some e; final := w |}
  end.

(** ** Stores and runtimes to run the script against *)

(** The path of a document: [collection/id], for string components. *)
Definition doc_path (doc_ref : DocRef) : option string :=
  match ref_collection doc_ref, ref_id doc_ref with
  | PStr collection, PStr id => Some (collection +:+ "/" +:+ id)
  | _, _ => None
  end.

(** The number of segments of a path: one more than it has slashes. *)
Fixpoint segments (path : string) : nat :=
  match path with
  | EmptyString => 1
  | String c rest => if decide (c = "/"%char) then S (segments rest) else segments rest
  end.

(** How the stand-in clients below answer line 45, after the checks of the
    Firestore client.  A collection path has an odd number of segments and
    a document path an even one, so the identifier has to keep the parity;
    what is not a string is refused; for None an identifier is made up,
    a new one for each reference built. *)
Definition address (path id : PyVal) (w : World) : Addressed :=
  match path with
  | PStr collection =>
      if Nat.even (segments collection) then
        Refused "ValueError" "A collection must have an odd number of path elements"
      else
        match id with
        | PNone =>
            Built {| ref_collection := path;
                     ref_id := PStr ("auto_" +:+ pretty (length (w_refs w))) |}
        | PStr name =>
            if Nat.even (segments name) then
              Refused "ValueError" "A document must have an even number of path elements"
            else Built {| ref_collection := path; ref_id := id |}
        | _ => Refused "TypeError" "sequence item: expected str instance"
        end
  | _ => Refused "TypeError" "expected str instance"
  end.

(** An in-memory store that takes every write as an upsert: the payload
    replaces whatever the path held. *)
Definition upsert_db : Db :=
  {| db_document := address;
     db_set := fun doc_ref payload store =>
       match doc_path doc_ref with
       | Some path => (Ok tt, <[path := payload]> store)
       | None => (Raise (OtherException "TypeError" "path components must be strings"), store)
       end |}.

(** A store whose every write raises [e]. *)
Definition failing_db (e : Exn) : Db :=
  {| db_document := address;
     db_set := fun _ _ store => (Raise e, store) |}.

(** A clock that advances by one second per reading. *)
Definition clock (n : nat) : Datetime :=
  {| dt_timestamp := "1762257600." +:+ pretty n;
     dt_isoformat := "2025-11-04T12:00:0" +:+ pretty n |}.

(** A runtime in which the library is installed and [Client()] returns [db]. *)
Definition runtime (environ : gmap string string) (db : Db) : Runtime :=
  {| rt_environ := environ;
     rt_now := clock;
     rt_repr := fun _ => "<object>";
     rt_import_firestore := None;
     rt_Client := Ok db |}.

(** What the body of the [try] of [get_firestore_client] comes to: the
    import may raise, then the constructor may. *)
Definition construction (rt : Runtime) : Outcome Db :=
  match rt_import_firestore rt with
  | Some e => Raise e
  | None => rt_Client rt
  end.

(** What [get_firestore_client] prints for the exception [e] it handles. *)
Definition construction_diagnostic (e : Exn) : list string :=
  if is_ImportError e then
    [ "ERROR: google-cloud-firestore not installed";
      "Run: pip install google-cloud-firestore" ]
  else
    [ "ERROR: Failed to initialize Firestore client: " +:+ exc_str e ].

(** The namespace with [firestore] bound at module level as well: what
    lines 48 to 68 are written against. *)
Definition globals_with_firestore (environ : gmap string string) : gmap string PyVal :=
  <["firestore" := PModule "google.cloud.firestore"]> (module_globals environ).

(** The dictionary lines 48 to 60 describe, for the values the names
    resolve to and the clock reading taken. *)
Definition payload_of (user_id app_id message_id : PyVal) (entry_data : Dict)
    (now : Datetime) : Dict :=
  [ ("user_id", user_id);
    ("app_id", app_id);
    ("message_id", message_id);
    ("content", dict_get_default entry_data "content" (PStr ""));
    ("metadata", dict_get_default entry_data "metadata" (PDict []));
    ("timestamp", PStr (dt_isoformat now));
    ("indexed_at", PServerTimestamp) ]
  ++ match dict_get entry_data "vector" with
     | Some vector => [("vector", vector)]
     | None => []
     end.

(** The identifier line 42 gives an entry in the world [w]. *)
Definition resolved_id (rt : Runtime) (entry_data : Dict) (w : World) : PyVal :=
  dict_get_default entry_data "message_id"
    (PStr ("msg_" +:+ dt_timestamp (rt_now rt (w_ticks w)))).

(** What the client answers at line 45 for an entry in the world [w]: it
    is asked once the clock has been read for line 42. *)
Definition answer (rt : Runtime) (db : Db) (path : PyVal) (entry_data : Dict)
    (w : World) : Addressed :=
  db_document db path (resolved_id rt entry_data w) (tick w).

(** The world in which the write of an entry is attempted, or the
    NameError leaves the call: the clock read twice, the reference built. *)
Definition before_write (doc_ref : DocRef) (w : World) : World :=
  tick (note_ref doc_ref (tick w)).

(** How a call of [ingest_log_entry] ends in a namespace without
    [firestore], by the answer of the client at line 45: a refusal leaves
    the call after one reading of the clock, the NameError after two. *)
Definition unbound_outcome {A : Type} (a : Addressed) (w : World) : Outcome A * World :=
  match a with
  | Built doc_ref => (Raise (NameError "firestore"), before_write doc_ref w)
  | Refused class msg => (Raise (OtherException class msg), tick w)
  end.

(** The line printed for a write that returned, and for one that raised. *)
Definition success_line (rt : Runtime) (message_id path : PyVal) : string :=
  "✓ Ingested: " +:+ py_str rt message_id +:+ " to " +:+ py_str rt path.

Definition failure_line (rt : Runtime) (message_id : PyVal) (e : Exn) : string :=
  "✗ Failed to ingest " +:+ py_str rt message_id +:+ ": " +:+ exc_str e.

(** The seven lines printed before the client is opened. *)
Definition banner (environ : gmap string string) : list string :=
  [ rule;
    "RAG Stack Ingestion Script (V1.1)";
    rule;
    "App ID: " +:+ APP_ID environ;
    "User ID: " +:+ USER_ID environ;
    "Collection Path: " +:+ COLLECTION_PATH environ;
    rule ].


(** A runtime in which the import of the library raises [e]. *)
Definition runtime_import_raises (environ : gmap string string) (e : Exn) : Runtime :=
  {| rt_environ := environ;
     rt_now := clock;
     rt_repr := fun _ => "<object>";
     rt_import_firestore := Some e;
     rt_Client := Ok upsert_db |}.

(** A runtime in which the library is installed and [Client()] raises [e]. *)
Definition runtime_Client_raises (environ : gmap string string) (e : Exn) : Runtime :=
  {| rt_environ := environ;
     rt_now := clock;
     rt_repr := fun _ => "<object>";
     rt_import_firestore := None;
     rt_Client := Raise e |}.

(** The status a run ends with, by what the construction of the client
    came to. *)
Definition status_after (c : Outcome Db) : Z :=
  match c with
  | Raise (SystemExit code) => exit_code code
  | _ => 1
  end.

(** The lines a run prints after the banner, by what the construction of
    the client came to. *)
Definition console_after (c : Outcome Db) : list string :=
  match c with
  | Raise e => if is_Exception e then construction_diagnostic e else []
  | Ok _ => []
  end.

(** The construction of the client settles within the script: it returns
    a client, or raises an Exception, which the handlers of
    [get_firestore_client] take. *)
Definition settles (c : Outcome Db) : bool :=
  match c with
  | Ok _ => true
  | Raise e => is_Exception e
  end.

(** What the client answers for the one entry of [example_entries]: it
    is asked after the banner and one reading of the clock. *)
Definition example_answer (environ : gmap string string) (db : Db)
    (store : gmap string Dict) : Addressed :=
  db_document db (PStr (COLLECTION_PATH environ)) (PStr "example_001")
    {| w_ticks := 1; w_stdout := banner environ; w_refs := []; w_store := store |}.

(** * Properties *)

(** ** The monad *)

Lemma bind_Ok {A B : Type} (m : M A) (k : A -> M B) (w w' : World) (a : A) :
  m w = (Ok a, w') -> bind m k w = k a w'.
Proof. intros Hm. unfold bind. now rewrite Hm. Qed.

Lemma bind_Raise {A B : Type} (m : M A) (k : A -> M B) (w w' : World) (e : Exn) :
  m w = (Raise e, w') -> bind m k w = (Raise e, w').
Proof. intros Hm. unfold bind. now rewrite Hm. Qed.

Lemma try_except_Ok {A : Type} (body : M A) (handler : Exn -> M A)
    (w w' : World) (a : A) :
  body w = (Ok a, w') -> try_except body handler w = (Ok a, w').
Proof. intros Hb. unfold try_except. now rewrite Hb. Qed.

Lemma try_except_Raise {A : Type} (body : M A) (handler : Exn -> M A)
    (w w' : World) (e : Exn) :
  body w = (Raise e, w') -> try_except body handler w = handler e w'.
Proof. intros Hb. unfold try_except. now rewrite Hb. Qed.

Lemma load_global_bound (G : gmap string PyVal) (name : string) (v : PyVal) (w : World) :
  G !! name = Some v -> load_global G name w = (Ok v, w).
Proof. intros HG. unfold load_global. now rewrite HG. Qed.

Lemma load_global_unbound (G : gmap string PyVal) (name : string) (w : World) :
  G !! name = None -> load_global G name w = (Raise (NameError name), w).
Proof. intros HG. unfold load_global. now rewrite HG. Qed.

(** ** Dictionaries *)

Lemma dict_get_setitem_eq (d : Dict) (key : string) (value : PyVal) :
  dict_get (dict_setitem d key value) key = Some value.
Proof.
  induction d as [|[k v] rest IH]; simpl.
  - now rewrite decide_True.
  - destruct (decide (k = key)) as [->|Hne]; simpl.
    + now rewrite decide_True.
    + now rewrite decide_False.
Qed.

Lemma dict_get_setitem_ne (d : Dict) (key key' : string) (value : PyVal) :
  key <> key' -> dict_get (dict_setitem d key value) key' = dict_get d key'.
Proof.
  intros Hne. induction d as [|[k v] rest IH]; simpl.
  - now rewrite decide_False.
  - destruct (decide (k = key)) as [->|Hk]; simpl.
    + now rewrite !decide_False.
    + destruct (decide (k = key')); [reflexivity | exact IH].
Qed.

Lemma dict_keys_setitem_new (d : Dict) (key : string) (value : PyVal) :
  dict_get d key = None -> dict_keys (dict_setitem d key value) = dict_keys d ++ [key].
Proof.
  unfold dict_keys. induction d as [|[k v] rest IH]; simpl; [reflexivity |].
  destruct (decide (k = key)); [discriminate |].
  intros Hnone. cbn [fmap list_fmap fst]. f_equal. now apply IH.
Qed.

(** ** The module namespace *)

Section Namespace.
Variable environ : gmap string string.

Lemma firestore_unbound : module_globals environ !! "firestore" = None.
Proof. reflexivity. Qed.

Lemma datetime_bound :
  module_globals environ !! "datetime" = Some (PClass "datetime.datetime").
Proof. reflexivity. Qed.

Lemma sys_bound : module_globals environ !! "sys" = Some (PModule "sys").
Proof. reflexivity. Qed.

Lemma APP_ID_bound : module_globals environ !! "APP_ID" = Some (PStr (APP_ID environ)).
Proof. reflexivity. Qed.

Lemma USER_ID_bound : module_globals environ !! "USER_ID" = Some (PStr (USER_ID environ)).
Proof. reflexivity. Qed.

Lemma COLLECTION_PATH_bound :
  module_globals environ !! "COLLECTION_PATH" = Some (PStr (COLLECTION_PATH environ)).
Proof. reflexivity. Qed.

(** Binding [firestore] as well leaves the other names as they are. *)
Lemma globals_with_firestore_other (name : string) :
  name <> "firestore" ->
  globals_with_firestore environ !! name = module_globals environ !! name.
Proof. intros Hne. unfold globals_with_firestore. now rewrite lookup_insert_ne. Qed.

Lemma globals_with_firestore_bound :
  globals_with_firestore environ !! "firestore" = Some (PModule "google.cloud.firestore").
Proof. unfold globals_with_firestore. apply lookup_insert_eq. Qed.
End Namespace.

(** ** The steps of ingest_log_entry, in any namespace *)

Section Steps.
Variables (G : gmap string PyVal) (rt : Runtime).
Hypothesis datetime_is_class : G !! "datetime" = Some (PClass "datetime.datetime").

Lemma datetime_now_reads (w : World) :
  datetime_now G rt w = (Ok (rt_now rt (w_ticks w)), tick w).
Proof.
  unfold datetime_now.
  now rewrite (bind_Ok _ _ _ _ _ (load_global_bound _ _ _ w datetime_is_class)).
Qed.

Lemma message_id_of_returns (entry_data : Dict) (w : World) :
  message_id_of G rt entry_data w =
  (Ok (resolved_id rt entry_data w), tick w).
Proof.
  unfold message_id_of.
  now rewrite (bind_Ok _ _ _ _ _ (datetime_now_reads w)).
Qed.

Section Unbound.
Variables (user_id app_id path : PyVal).
Hypothesis USER_ID_is : G !! "USER_ID" = Some user_id.
Hypothesis APP_ID_is : G !! "APP_ID" = Some app_id.
Hypothesis COLLECTION_PATH_is : G !! "COLLECTION_PATH" = Some path.
Hypothesis firestore_missing : G !! "firestore" = None.

(** The display stops at its last value: the clock has been read, the
    name [firestore] is not found. *)
Lemma build_payload_unbound (entry_data : Dict) (message_id : PyVal) (w : World) :
  build_payload G rt entry_data message_id w =
  (Raise (NameError "firestore"), tick w).
Proof.
  unfold build_payload.
  rewrite (bind_Ok _ _ _ _ _ (load_global_bound _ _ _ w USER_ID_is)).
  rewrite (bind_Ok _ _ _ _ _ (load_global_bound _ _ _ w APP_ID_is)).
  rewrite (bind_Ok _ _ _ _ _ (datetime_now_reads w)).
  now rewrite (bind_Raise _ _ _ _ _ (load_global_unbound _ _ (tick w) firestore_missing)).
Qed.

Lemma document_answers (db : Db) (id : PyVal) (w : World) :
  document db path id w =
  match db_document db path id w with
  | Built doc_ref => (Ok doc_ref, note_ref doc_ref w)
  | Refused class msg => (Raise (OtherException class msg), w)
  end.
Proof. reflexivity. Qed.

Lemma ingest_log_entry_unbound (db : Db) (entry_data : Dict) (w : World) :
  ingest_log_entry G rt db entry_data w =
  unbound_outcome (answer rt db path entry_data w) w.
Proof.
  unfold ingest_log_entry.
  rewrite (bind_Ok _ _ _ _ _ (message_id_of_returns entry_data w)).
  rewrite (bind_Ok _ _ _ _ _ (load_global_bound _ _ _ (tick w) COLLECTION_PATH_is)).
  unfold answer, unbound_outcome, before_write.
  destruct (db_document db path (resolved_id rt entry_data w) (tick w))
    as [doc_ref|class msg] eqn:Hanswer.
  - erewrite bind_Ok by (rewrite document_answers, Hanswer; reflexivity).
    now rewrite (bind_Raise _ _ _ _ _ (build_payload_unbound entry_data _ _)).
  - now erewrite bind_Raise by (rewrite document_answers, Hanswer; reflexivity).
Qed.

(** The call never returns: it raises whatever the client answers. *)
Lemma unbound_outcome_raises {A : Type} (a : Addressed) (w : World) :
  exists (e : Exn) (w' : World),
    unbound_outcome (A := A) a w = (Raise e, w') /\
    is_Exception e = true /\
    w_stdout w' = w_stdout w /\ w_store w' = w_store w.
Proof.
  destruct a as [doc_ref|class msg]; cbn; eexists _, _; repeat split.
Qed.

(** The loop stops at its first entry. *)
Lemma ingest_each_unbound (db : Db) (entry_data : Dict) (rest : list Dict)
    (success_count : nat) (w : World) :
  ingest_each G rt db (entry_data :: rest) success_count w =
  unbound_outcome (answer rt db path entry_data w) w.
Proof.
  cbn [ingest_each]. unfold bind.
  rewrite ingest_log_entry_unbound.
  now destruct (answer rt db path entry_data w).
Qed.
End Unbound.
End Steps.

(** ** get_firestore_client *)

Lemma print_emits (line : string) (w : World) : print line w = (Ok tt, emit line w).
Proof. reflexivity. Qed.

Ltac run_print := rewrite (bind_Ok _ _ _ _ _ (print_emits _ _)).
Ltac run_load H := rewrite (bind_Ok _ _ _ _ _ (load_global_bound _ _ _ _ H)).

Section Connect.
Variables (G : gmap string PyVal) (rt : Runtime).
Hypothesis sys_is_module : G !! "sys" = Some (PModule "sys").

Lemma sys_exit_raises {A : Type} (code : Z) (w : World) :
  sys_exit (A := A) G code w = (Raise (SystemExit code), w).
Proof. unfold sys_exit. now run_load sys_is_module. Qed.

Lemma try_body_outcome (w : World) :
  (firestore <- import_firestore rt ;; Client rt firestore)%py w =
  (construction rt, w).
Proof.
  unfold construction, import_firestore, Client, bind.
  destruct (rt_import_firestore rt) as [e|]; [reflexivity |].
  cbn. now destruct (rt_Client rt).
Qed.

Lemma get_firestore_client_returns (db : Db) (w : World) :
  construction rt = Ok db -> get_firestore_client G rt w = (Ok db, w).
Proof.
  intros Hc. unfold get_firestore_client.
  apply try_except_Ok. now rewrite try_body_outcome, Hc.
Qed.

(** A failure of the import or of the constructor that is an [Exception]
    is reported and turned into [sys.exit(1)]. *)
Lemma get_firestore_client_exits (e : Exn) (w : World) :
  construction rt = Raise e ->
  is_Exception e = true ->
  get_firestore_client G rt w =
  (Raise (SystemExit 1),
   {| w_ticks := w_ticks w; w_stdout := w_stdout w ++ construction_diagnostic e;
      w_refs := w_refs w; w_store := w_store w |}).
Proof.
  intros Hc He. unfold get_firestore_client.
  erewrite try_except_Raise by (rewrite try_body_outcome, Hc; reflexivity).
  unfold construction_diagnostic.
  destruct (is_ImportError e).
  - do 2 run_print. rewrite sys_exit_raises.
    unfold emit; cbn. now rewrite <- app_assoc.
  - rewrite He. run_print. now rewrite sys_exit_raises.
Qed.

(** Anything else the body raises is not handled. *)
Lemma get_firestore_client_propagates (e : Exn) (w : World) :
  construction rt = Raise e ->
  is_Exception e = false ->
  get_firestore_client G rt w = (Raise e, w).
Proof.
  intros Hc He. unfold get_firestore_client.
  erewrite try_except_Raise by (rewrite try_body_outcome, Hc; reflexivity).
  destruct e; try discriminate. reflexivity.
Qed.
End Connect.

(** ** main and the process *)

Section Run.
Variables (rt : Runtime) (store : gmap string Dict).

(** The banner is printed whatever happens next. *)
Lemma main_prints_banner (next : M unit) :
  (print rule ;;
   print "RAG Stack Ingestion Script (V1.1)" ;;
   print rule ;;
   app_id <- load_global (module_globals (rt_environ rt)) "APP_ID" ;;
   print ("App ID: " +:+ py_str rt app_id) ;;
   user_id <- load_global (module_globals (rt_environ rt)) "USER_ID" ;;
   print ("User ID: " +:+ py_str rt user_id) ;;
   path <- load_global (module_globals (rt_environ rt)) "COLLECTION_PATH" ;;
   print ("Collection Path: " +:+ py_str rt path) ;;
   print rule ;;
   next)%py (start store) =
  next {| w_ticks := 0; w_stdout := banner (rt_environ rt); w_refs := []; w_store := store |}.
Proof.
  do 3 run_print.
  run_load (APP_ID_bound (rt_environ rt)). run_print.
  run_load (USER_ID_bound (rt_environ rt)). run_print.
  run_load (COLLECTION_PATH_bound (rt_environ rt)). run_print.
  run_print. reflexivity.
Qed.

(** When the client cannot be constructed, the diagnostic follows the
    banner, nothing has been asked of the store, and the status is 1. *)
Lemma run_script_construction_fails (e : Exn) :
  construction rt = Raise e ->
  is_Exception e = true ->
  run_script rt store =
  {| exit_status := 1; uncaught := None;
     final := {| w_ticks := 0; w_stdout := banner (rt_environ rt) ++ construction_diagnostic e;
                 w_refs := []; w_store := store |} |}.
Proof.
  intros Hc He. unfold run_script, main.
  rewrite main_prints_banner.
  erewrite bind_Raise
    by (apply (get_firestore_client_exits _ rt (sys_bound (rt_environ rt)) e); assumption).
  reflexivity.
Qed.

(** When the client is constructed, the run ends in the first call of
    [ingest_log_entry]: by the refusal of the client, or by the NameError. *)
Lemma run_script_client_constructed (db : Db) :
  construction rt = Ok db ->
  run_script rt store =
  match example_answer (rt_environ rt) db store with
  | Built doc_ref =>
      {| exit_status := 1; uncaught := Some (NameError "firestore");
         final := {| w_ticks := 2; w_stdout := banner (rt_environ rt);
                     w_refs := [doc_ref]; w_store := store |} |}
  | Refused class msg =>
      {| exit_status := 1; uncaught := Some (OtherException class msg);
         final := {| w_ticks := 1; w_stdout := banner (rt_environ rt);
                     w_refs := []; w_store := store |} |}
  end.
Proof.
  intros Hc. unfold run_script, main.
  rewrite main_prints_banner.
  erewrite bind_Ok by (apply (get_firestore_client_returns _ rt db _ Hc)).
  unfold example_entries. unfold bind at 1.
  rewrite (ingest_each_unbound _ rt (datetime_bound (rt_environ rt)) _ _ _
             (USER_ID_bound (rt_environ rt)) (APP_ID_bound (rt_environ rt))
             (COLLECTION_PATH_bound (rt_environ rt)) (firestore_unbound (rt_environ rt))).
  unfold answer, example_answer, unbound_outcome.
  change (resolved_id rt _ _) with (PStr "example_001").
  now destruct (db_document db _ _ _).
Qed.

(** Whatever the runtime does, the script leaves the store as it found it. *)
Lemma run_script_store_unchanged :
  w_store (final (run_script rt store)) = store.
Proof.
  destruct (construction rt) as [db|e] eqn:Hc.
  - rewrite (run_script_client_constructed db Hc).
    now destruct (example_answer (rt_environ rt) db store).
  - destruct (is_Exception e) eqn:He.
    + now rewrite (run_script_construction_fails e Hc He).
    + unfold run_script, main. rewrite main_prints_banner.
      erewrite bind_Raise
        by (apply (get_firestore_client_propagates _ rt e); assumption).
      destruct e; try discriminate. reflexivity.
Qed.
End Run.

(** ** Configuration *)

Lemma APP_ID_from_environ (environ : gmap string string) (A : string) :
  environ !! "__app_id" = Some A -> APP_ID environ = A.
Proof. intros Henv. unfold APP_ID, getenv. now rewrite Henv. Qed.

Lemma APP_ID_default (environ : gmap string string) :
  environ !! "__app_id" = None -> APP_ID environ = "default-app-id".
Proof. intros Henv. unfold APP_ID, getenv. now rewrite Henv. Qed.

Lemma USER_ID_default (environ : gmap string string) :
  environ !! "USER_ID" = None -> USER_ID environ = "jasonbender-c3x".
Proof. intros Henv. unfold USER_ID, getenv. now rewrite Henv. Qed.

(** C5.  For any app_id value A resolved from the environment, the
    collection path computed when the module is loaded is the string
    artifacts/A/public/data/knowledge_buckets, and that string is what the
    name COLLECTION_PATH is bound to for the function bodies. *)
Theorem COLLECTION_PATH_of_app_id (environ : gmap string string) (A : string) :
  APP_ID environ = A ->
  COLLECTION_PATH environ = "artifacts/" +:+ A +:+ "/public/data/knowledge_buckets" /\
  module_globals environ !! "COLLECTION_PATH" =
    Some (PStr ("artifacts/" +:+ A +:+ "/public/data/knowledge_buckets")).
Proof.
  intros <-. split.
  - reflexivity.
  - apply COLLECTION_PATH_bound.
Qed.

Lemma COLLECTION_PATH_of_app_id_witness :
  APP_ID {["__app_id" := "tenant-7"]} = "tenant-7" /\
  COLLECTION_PATH {["__app_id" := "tenant-7"]} =
    "artifacts/tenant-7/public/data/knowledge_buckets".
Proof.
  split.
  - vm_compute; reflexivity.
  - apply (COLLECTION_PATH_of_app_id {["__app_id" := "tenant-7"]} "tenant-7").
    vm_compute; reflexivity.
Defined.

(** ** ingest_log_entry in the namespace of the module *)

Lemma ingest_log_entry_module (environ : gmap string string) (rt : Runtime) (db : Db)
    (entry_data : Dict) (w : World) :
  ingest_log_entry (module_globals environ) rt db entry_data w =
  unbound_outcome (answer rt db (PStr (COLLECTION_PATH environ)) entry_data w) w.
Proof.
  apply (ingest_log_entry_unbound _ rt (datetime_bound environ) _ _ _
           (USER_ID_bound environ) (APP_ID_bound environ)
           (COLLECTION_PATH_bound environ) (firestore_unbound environ)).
Qed.

(** C2, as amended.  For every entry, client and world, [ingest_log_entry]
    run in the namespace of the module raises before its try block, with
    nothing printed and the store untouched, so that the call returns
    neither True nor False.  When the client builds the reference of line
    45, the exception is the NameError for firestore: the module binds no
    such name and the dictionary display of the payload stops there.  When
    the client refuses the path, the exception is the client's, raised at
    line 45, and the payload is not started. *)
Theorem ingest_log_entry_raises_NameError (environ : gmap string string)
    (rt : Runtime) (db : Db) (entry_data : Dict) (w : World) :
  module_globals environ !! "firestore" = None /\
  (forall (message_id : PyVal) (w1 : World),
     fst (build_payload (module_globals environ) rt entry_data message_id w1) =
     Raise (NameError "firestore")) /\
  ingest_log_entry (module_globals environ) rt db entry_data w =
    match db_document db (PStr (COLLECTION_PATH environ))
            (resolved_id rt entry_data w) (tick w) with
    | Built doc_ref => (Raise (NameError "firestore"), tick (note_ref doc_ref (tick w)))
    | Refused class msg => (Raise (OtherException class msg), tick w)
    end /\
  w_stdout (snd (ingest_log_entry (module_globals environ) rt db entry_data w)) =
    w_stdout w /\
  w_store (snd (ingest_log_entry (module_globals environ) rt db entry_data w)) =
    w_store w.
Proof.
  split; [apply firestore_unbound |]. split.
  - intros message_id w1.
    now rewrite (build_payload_unbound _ rt (datetime_bound environ) _ _
                   (USER_ID_bound environ) (APP_ID_bound environ)
                   (firestore_unbound environ)).
  - rewrite ingest_log_entry_module. unfold answer, unbound_outcome, before_write.
    destruct (db_document db _ _ _); repeat split.
Qed.

(** C2, as it was stated, fails for an entry whose identifier the client
    refuses: with message_id a/b the call raises the ValueError of line 45,
    not the NameError. *)
Lemma refused_identifier_raises_first :
  ingest_log_entry (module_globals ∅) (runtime ∅ upsert_db) upsert_db
    [ ("message_id", PStr "a/b"); ("content", PStr "nested") ] (start ∅) =
  (Raise (OtherException "ValueError"
            "A document must have an even number of path elements"),
   tick (start ∅)) /\
  fst (ingest_log_entry (module_globals ∅) (runtime ∅ upsert_db) upsert_db
         [ ("message_id", PStr "a/b"); ("content", PStr "nested") ] (start ∅)) <>
  Raise (NameError "firestore").
Proof.
  split.
  - vm_compute; reflexivity.
  - vm_compute. discriminate.
Qed.

(** C7.  For every entry without a message_id key, [ingest_log_entry]
    makes up an identifier, msg_ followed by the text of the clock's
    timestamp: it is a non-empty string, and it is the identifier the
    client is asked for under the collection path, so that the reference
    the client builds for it is the one the call holds. *)
Theorem synthesized_message_id_nonempty (environ : gmap string string)
    (rt : Runtime) (db : Db) (entry_data : Dict) (w : World) :
  dict_contains entry_data "message_id" = false ->
  exists id : string,
    id <> "" /\
    fst (message_id_of (module_globals environ) rt entry_data w) = Ok (PStr id) /\
    forall doc_ref : DocRef,
      db_document db (PStr (COLLECTION_PATH environ)) (PStr id) (tick w) = Built doc_ref ->
      w_refs (snd (ingest_log_entry (module_globals environ) rt db entry_data w)) =
        w_refs w ++ [doc_ref].
Proof.
  intros Hlacks.
  assert (Hget : dict_get entry_data "message_id" = None).
  { unfold dict_contains in Hlacks.
    destruct (dict_get entry_data "message_id"); [discriminate | reflexivity]. }
  assert (Hid : resolved_id rt entry_data w =
                PStr ("msg_" +:+ dt_timestamp (rt_now rt (w_ticks w)))).
  { unfold resolved_id, dict_get_default. now rewrite Hget. }
  exists ("msg_" +:+ dt_timestamp (rt_now rt (w_ticks w))).
  split; [discriminate |]. split.
  - rewrite (message_id_of_returns _ rt (datetime_bound environ)).
    cbn [fst]. now rewrite Hid.
  - intros doc_ref Hbuilt. rewrite ingest_log_entry_module.
    unfold answer. now rewrite Hid, Hbuilt.
Qed.

Lemma synthesized_message_id_nonempty_witness :
  exists id : string,
    id <> "" /\
    fst (message_id_of (module_globals ∅) (runtime ∅ upsert_db)
           [("content", PStr "no identifier")] (start ∅)) = Ok (PStr id) /\
    w_refs (snd (ingest_log_entry (module_globals ∅) (runtime ∅ upsert_db) upsert_db
                   [("content", PStr "no identifier")] (start ∅))) =
      w_refs (start ∅) ++ [ {| ref_collection := PStr (COLLECTION_PATH ∅);
                               ref_id := PStr id |} ].
Proof.
  destruct (synthesized_message_id_nonempty ∅ (runtime ∅ upsert_db) upsert_db
              [("content", PStr "no identifier")] (start ∅) eq_refl)
    as (id & Hne & Hid & Hrefs).
  exists id. split; [exact Hne |]. split; [exact Hid |].
  apply Hrefs. vm_compute in Hid. injection Hid as <-. reflexivity.
Defined.








(** ** Lines 48 to 68 in a namespace that binds firestore

    The module's own namespace does not ([firestore_unbound]); the lemmas
    of this section describe the rest of [ingest_log_entry] for a namespace
    that does, such as [globals_with_firestore]. *)

Section Bound.
Variables (G : gmap string PyVal) (rt : Runtime).
Variables (user_id app_id path : PyVal).
Hypothesis datetime_is_class : G !! "datetime" = Some (PClass "datetime.datetime").
Hypothesis USER_ID_is : G !! "USER_ID" = Some user_id.
Hypothesis APP_ID_is : G !! "APP_ID" = Some app_id.
Hypothesis COLLECTION_PATH_is : G !! "COLLECTION_PATH" = Some path.
Hypothesis firestore_is_module :
  G !! "firestore" = Some (PModule "google.cloud.firestore").

Lemma build_payload_bound (entry_data : Dict) (message_id : PyVal) (w : World) :
  build_payload G rt entry_data message_id w =
  (Ok (payload_of user_id app_id message_id entry_data (rt_now rt (w_ticks w))), tick w).
Proof.
  unfold build_payload.
  run_load USER_ID_is. run_load APP_ID_is.
  rewrite (bind_Ok _ _ _ _ _ (datetime_now_reads G rt datetime_is_class w)).
  run_load firestore_is_module.
  unfold payload_of. now destruct (dict_get entry_data "vector").
Qed.

Lemma write_payload_returned (db : Db) (doc_ref : DocRef) (message_id : PyVal)
    (payload : Dict) (w : World) (store' : gmap string Dict) :
  db_set db doc_ref payload (w_store w) = (Ok tt, store') ->
  write_payload G rt db doc_ref message_id payload w =
  (Ok true, emit (success_line rt message_id path) (put_store store' w)).
Proof.
  intros Hset. unfold write_payload. apply try_except_Ok.
  erewrite bind_Ok by (unfold set; rewrite Hset; reflexivity).
  run_load COLLECTION_PATH_is. now run_print.
Qed.

Lemma write_payload_raised (db : Db) (doc_ref : DocRef) (message_id : PyVal)
    (payload : Dict) (w : World) (store' : gmap string Dict) (e : Exn) :
  db_set db doc_ref payload (w_store w) = (Raise e, store') ->
  is_Exception e = true ->
  write_payload G rt db doc_ref message_id payload w =
  (Ok false, emit (failure_line rt message_id e) (put_store store' w)).
Proof.
  intros Hset He. unfold write_payload.
  erewrite try_except_Raise
    by (erewrite bind_Raise by (unfold set; rewrite Hset; reflexivity); reflexivity).
  rewrite He. now run_print.
Qed.

Lemma ingest_log_entry_bound (db : Db) (entry_data : Dict) (w : World)
    (doc_ref : DocRef) :
  answer rt db path entry_data w = Built doc_ref ->
  ingest_log_entry G rt db entry_data w =
  write_payload G rt db doc_ref
    (resolved_id rt entry_data w)
    (payload_of user_id app_id (resolved_id rt entry_data w) entry_data
       (rt_now rt (S (w_ticks w))))
    (before_write doc_ref w).
Proof.
  intros Hanswer. unfold ingest_log_entry.
  rewrite (bind_Ok _ _ _ _ _ (message_id_of_returns G rt datetime_is_class entry_data w)).
  run_load COLLECTION_PATH_is.
  erewrite bind_Ok by (unfold document; unfold answer in Hanswer; rewrite Hanswer; reflexivity).
  now rewrite (bind_Ok _ _ _ _ _ (build_payload_bound entry_data _ _)).
Qed.

(** When the client refuses the path, the call ends at line 45 in this
    namespace too. *)
Lemma ingest_log_entry_refused (db : Db) (entry_data : Dict) (w : World)
    (class msg : string) :
  answer rt db path entry_data w = Refused class msg ->
  ingest_log_entry G rt db entry_data w = (Raise (OtherException class msg), tick w).
Proof.
  intros Hanswer. unfold ingest_log_entry.
  rewrite (bind_Ok _ _ _ _ _ (message_id_of_returns G rt datetime_is_class entry_data w)).
  run_load COLLECTION_PATH_is.
  now erewrite bind_Raise
    by (unfold document; unfold answer in Hanswer; rewrite Hanswer; reflexivity).
Qed.

(** With a store that refuses every write, each entry the client builds a
    reference for costs one line, and the count of successes does not
    move. *)
Lemma ingest_each_all_refused (e : Exn) (entries : list Dict) :
  is_Exception e = true ->
  Forall (fun entry_data =>
            forall w : World, exists doc_ref : DocRef,
              answer rt (failing_db e) path entry_data w = Built doc_ref) entries ->
  forall (success_count : nat) (w : World),
  exists w' : World,
    ingest_each G rt (failing_db e) entries success_count w = (Ok success_count, w') /\
    length (w_stdout w') = (length (w_stdout w) + length entries)%nat /\
    w_store w' = w_store w.
Proof.
  intros He Hbuilt. induction Hbuilt as [|entry_data rest Hentry _ IH];
    intros success_count w.
  - exists w. cbn. repeat split. lia.
  - cbn [ingest_each].
    destruct (Hentry w) as (doc_ref & Hanswer).
    pose (w1 := emit (failure_line rt (resolved_id rt entry_data w) e)
                  (put_store (w_store w) (before_write doc_ref w))).
    assert (Hcall : ingest_log_entry G rt (failing_db e) entry_data w = (Ok false, w1)).
    { rewrite (ingest_log_entry_bound _ _ _ _ Hanswer). now apply write_payload_raised. }
    destruct (IH success_count w1) as (w' & Hrun & Hout & Hstore).
    exists w'. rewrite (bind_Ok _ _ _ _ _ Hcall). split; [exact Hrun | split].
    + rewrite Hout. cbn. rewrite length_app. cbn. lia.
    + now rewrite Hstore.
Qed.
End Bound.

(** ** The payload *)

Lemma payload_of_keys (user_id app_id message_id : PyVal) (entry_data : Dict)
    (now : Datetime) :
  dict_keys (payload_of user_id app_id message_id entry_data now) =
  [ "user_id"; "app_id"; "message_id"; "content"; "metadata"; "timestamp"; "indexed_at" ]
  ++ (if dict_contains entry_data "vector" then ["vector"] else []).
Proof.
  unfold payload_of, dict_contains.
  now destruct (dict_get entry_data "vector").
Qed.

Lemma payload_of_vector (user_id app_id message_id : PyVal) (entry_data : Dict)
    (now : Datetime) :
  dict_get (payload_of user_id app_id message_id entry_data now) "vector" =
  dict_get entry_data "vector".
Proof.
  unfold payload_of.
  now destruct (dict_get entry_data "vector").
Qed.

(** ** The in-memory store *)

Lemma upsert_db_overwrites (doc_ref : DocRef) (p1 p2 : Dict) (path : string)
    (store : gmap string Dict) :
  doc_path doc_ref = Some path ->
  exists store1 : gmap string Dict,
    db_set upsert_db doc_ref p1 store = (Ok tt, store1) /\
    db_set upsert_db doc_ref p2 store1 = (Ok tt, <[path := p2]> store).
Proof.
  intros Hpath. exists (<[path := p1]> store). cbn. rewrite Hpath.
  split; [reflexivity |]. now rewrite insert_insert_eq.
Qed.

(** Between two clock readings only the timestamp field of the payload
    moves. *)
Lemma payload_of_clock (user_id app_id message_id : PyVal) (entry_data : Dict)
    (now1 now2 : Datetime) (key : string) :
  key <> "timestamp" ->
  dict_get (payload_of user_id app_id message_id entry_data now1) key =
  dict_get (payload_of user_id app_id message_id entry_data now2) key.
Proof.
  intros Hkey. unfold payload_of. cbn [app dict_get].
  repeat (case_decide; [reflexivity |]).
  case_decide; [congruence |].
  now case_decide.
Qed.

(** ** Upserts in a namespace that binds firestore *)

Section Upsert.
Variables (G : gmap string PyVal) (rt : Runtime).
Variables (user_id app_id : PyVal) (collection : string).
Hypothesis datetime_is_class : G !! "datetime" = Some (PClass "datetime.datetime").
Hypothesis USER_ID_is : G !! "USER_ID" = Some user_id.
Hypothesis APP_ID_is : G !! "APP_ID" = Some app_id.
Hypothesis COLLECTION_PATH_is : G !! "COLLECTION_PATH" = Some (PStr collection).
Hypothesis firestore_is_module :
  G !! "firestore" = Some (PModule "google.cloud.firestore").
Hypothesis collection_is_odd : Nat.even (segments collection) = false.

(** One entry with a string identifier that keeps the parity of the path:
    the payload lands at collection/id, whatever was there. *)
Lemma ingest_log_entry_upsert (entry_data : Dict) (id : string) (w : World) :
  dict_get entry_data "message_id" = Some (PStr id) ->
  Nat.even (segments id) = false ->
  exists w' : World,
    ingest_log_entry G rt upsert_db entry_data w = (Ok true, w') /\
    w_ticks w' = S (S (w_ticks w)) /\
    w_stdout w' = w_stdout w ++ [success_line rt (PStr id) (PStr collection)] /\
    w_store w' =
      (<[ (collection +:+ "/" +:+ id) :=
            payload_of user_id app_id (PStr id) entry_data (rt_now rt (S (w_ticks w))) ]>
         (w_store w)).
Proof.
  intros Hget Hodd.
  assert (Hid : resolved_id rt entry_data w = PStr id).
  { unfold resolved_id, dict_get_default. now rewrite Hget. }
  assert (Hanswer : answer rt upsert_db (PStr collection) entry_data w =
                    Built {| ref_collection := PStr collection; ref_id := PStr id |}).
  { unfold answer. rewrite Hid. cbn. now rewrite collection_is_odd, Hodd. }
  eexists. split.
  - rewrite (ingest_log_entry_bound G rt user_id app_id (PStr collection)
               datetime_is_class USER_ID_is APP_ID_is COLLECTION_PATH_is
               firestore_is_module upsert_db entry_data w _ Hanswer).
    rewrite Hid.
    apply (write_payload_returned G rt (PStr collection) COLLECTION_PATH_is).
    reflexivity.
  - repeat split.
Qed.

(** Two entries with the same identifier: one document at the path, the
    second payload. *)
Lemma ingest_same_id_twice (e1 e2 : Dict) (id : string) (w : World) :
  dict_get e1 "message_id" = Some (PStr id) ->
  dict_get e2 "message_id" = Some (PStr id) ->
  Nat.even (segments id) = false ->
  exists w1 w2 : World,
    ingest_log_entry G rt upsert_db e1 w = (Ok true, w1) /\
    ingest_log_entry G rt upsert_db e2 w1 = (Ok true, w2) /\
    w_store w2 =
      (<[ (collection +:+ "/" +:+ id) :=
            payload_of user_id app_id (PStr id) e2 (rt_now rt (S (S (S (w_ticks w))))) ]>
         (w_store w)).
Proof.
  intros Hid1 Hid2 Hodd.
  destruct (ingest_log_entry_upsert e1 id w Hid1 Hodd)
    as (w1 & Hrun1 & Hticks1 & _ & Hstore1).
  destruct (ingest_log_entry_upsert e2 id w1 Hid2 Hodd)
    as (w2 & Hrun2 & _ & _ & Hstore2).
  exists w1, w2. split; [exact Hrun1 | split; [exact Hrun2 |]].
  rewrite Hstore2, Hstore1, Hticks1. apply insert_insert_eq.
Qed.
End Upsert.

(** The example run in a namespace that binds firestore: the document is
    stored under the default collection path and the run is reported. *)
Example main_with_firestore_bound :
  main (globals_with_firestore ∅) (runtime ∅ upsert_db) (start ∅) =
  (Ok tt,
   {| w_ticks := 2;
      w_stdout :=
        banner ∅ ++
        [ "✓ Ingested: example_001 to artifacts/default-app-id/public/data/knowledge_buckets";
          rule;
          "Ingestion complete: 1/1 successful";
          rule ];
      w_refs :=
        [ {| ref_collection := PStr "artifacts/default-app-id/public/data/knowledge_buckets";
             ref_id := PStr "example_001" |} ];
      w_store :=
        {[ "artifacts/default-app-id/public/data/knowledge_buckets/example_001" :=
             [ ("user_id", PStr "jasonbender-c3x");
               ("app_id", PStr "default-app-id");
               ("message_id", PStr "example_001");
               ("content", PStr "Sample log entry for testing");
               ("metadata", PDict [("source", PStr "test"); ("type", PStr "example")]);
               ("timestamp", PStr "2025-11-04T12:00:01");
               ("indexed_at", PServerTimestamp) ] ]} |}).
Proof. vm_compute; reflexivity. Qed.

(** ** The script as it is: runs that end in the NameError *)

(** C1.  The entry with vector [0.1, 0.2] run through [ingest_log_entry]
    in the namespace of the module: the payload is never built (the display
    raises NameError for firestore), so no document with or without a
    vector field reaches the store. *)
Theorem vector_entry_payload_not_built :
  fst (build_payload (module_globals ∅) (runtime ∅ upsert_db)
         [ ("message_id", PStr "vec_001"); ("content", PStr "embedded");
           ("vector", PList [PFloat "0.1"; PFloat "0.2"]) ]
         (PStr "vec_001") (start ∅)) =
    Raise (NameError "firestore") /\
  ingest_log_entry (module_globals ∅) (runtime ∅ upsert_db) upsert_db
    [ ("message_id", PStr "vec_001"); ("content", PStr "embedded");
      ("vector", PList [PFloat "0.1"; PFloat "0.2"]) ]
    (start ∅) =
  (Raise (NameError "firestore"),
   {| w_ticks := 2; w_stdout := [];
      w_refs := [ {| ref_collection := PStr "artifacts/default-app-id/public/data/knowledge_buckets";
                     ref_id := PStr "vec_001" |} ];
      w_store := ∅ |}).
Proof. split; vm_compute; reflexivity. Qed.

(** C3.  The entry bad_id against a store that refuses every write: the
    call does not return False and prints no diagnostic, it raises NameError
    before the write is tried; a batch that starts with this entry stops
    there, the next entry is not processed and no count is reached. *)
Theorem refused_write_not_reached :
  ingest_log_entry (module_globals ∅)
    (runtime ∅ (failing_db (OtherException "PermissionDenied" "403 insufficient permissions")))
    (failing_db (OtherException "PermissionDenied" "403 insufficient permissions"))
    [ ("message_id", PStr "bad_id"); ("content", PStr "refused") ]
    (start ∅) =
  (Raise (NameError "firestore"),
   {| w_ticks := 2; w_stdout := [];
      w_refs := [ {| ref_collection := PStr "artifacts/default-app-id/public/data/knowledge_buckets";
                     ref_id := PStr "bad_id" |} ];
      w_store := ∅ |}) /\
  ingest_each (module_globals ∅)
    (runtime ∅ (failing_db (OtherException "PermissionDenied" "403 insufficient permissions")))
    (failing_db (OtherException "PermissionDenied" "403 insufficient permissions"))
    ([ ("message_id", PStr "bad_id"); ("content", PStr "refused") ] :: example_entries)
    0 (start ∅) =
  (Raise (NameError "firestore"),
   {| w_ticks := 2; w_stdout := [];
      w_refs := [ {| ref_collection := PStr "artifacts/default-app-id/public/data/knowledge_buckets";
                     ref_id := PStr "bad_id" |} ];
      w_store := ∅ |}).
Proof. split; vm_compute; reflexivity. Qed.

(** C4.  Whenever the client is constructed, whatever the environment, the
    clock and the store (one that takes the write or one that refuses it),
    the process ends with status 1 on an uncaught exception, not with
    status 0: the NameError when the client builds the reference of the
    example entry, the refusal of the client at line 45 otherwise. *)
Theorem run_status_with_client (environ : gmap string string) (now : nat -> Datetime)
    (repr : PyVal -> string) (db : Db) (store : gmap string Dict) :
  exit_status
    (run_script {| rt_environ := environ; rt_now := now; rt_repr := repr;
                   rt_import_firestore := None; rt_Client := Ok db |} store) = 1 /\
  uncaught
    (run_script {| rt_environ := environ; rt_now := now; rt_repr := repr;
                   rt_import_firestore := None; rt_Client := Ok db |} store) =
    match example_answer environ db store with
    | Built _ => Some (NameError "firestore")
    | Refused class msg => Some (OtherException class msg)
    end.
Proof.
  rewrite (run_script_client_constructed
             {| rt_environ := environ; rt_now := now; rt_repr := repr;
                rt_import_firestore := None; rt_Client := Ok db |}
             store db eq_refl).
  cbn [rt_environ]. now destruct (example_answer environ db store).
Qed.

(** C6.  Two entries with the message_id dup ingested one after the other
    into the in-memory store: both calls build the reference
    collection_path/dup, both raise NameError, and the store holds no
    document afterwards. *)
Theorem same_message_id_twice_no_document :
  let first :=
    ingest_log_entry (module_globals ∅) (runtime ∅ upsert_db) upsert_db
      [ ("message_id", PStr "dup"); ("content", PStr "first") ] (start ∅) in
  let second :=
    ingest_log_entry (module_globals ∅) (runtime ∅ upsert_db) upsert_db
      [ ("message_id", PStr "dup"); ("content", PStr "second") ] (snd first) in
  fst first = Raise (NameError "firestore") /\
  fst second = Raise (NameError "firestore") /\
  doc_path <$> w_refs (snd second) =
    [ Some "artifacts/default-app-id/public/data/knowledge_buckets/dup";
      Some "artifacts/default-app-id/public/data/knowledge_buckets/dup" ] /\
  w_store (snd second) = ∅.
Proof. cbv zeta. repeat split; vm_compute; reflexivity. Qed.

(** C8.  The script run with both environment variables unset against the
    in-memory store: the banner shows the two defaults, then the run dies
    on the NameError with status 1; no success line is printed and nothing
    is stored at artifacts/default-app-id/public/data/knowledge_buckets/example_001. *)
Theorem example_run_stores_nothing :
  run_script (runtime ∅ upsert_db) ∅ =
  {| exit_status := 1;
     uncaught := Some (NameError "firestore");
     final :=
       {| w_ticks := 2;
          w_stdout :=
            [ "============================================================";
              "RAG Stack Ingestion Script (V1.1)";
              "============================================================";
              "App ID: default-app-id";
              "User ID: jasonbender-c3x";
              "Collection Path: artifacts/default-app-id/public/data/knowledge_buckets";
              "============================================================" ];
          w_refs :=
            [ {| ref_collection := PStr "artifacts/default-app-id/public/data/knowledge_buckets";
                 ref_id := PStr "example_001" |} ];
          w_store := ∅ |} |} /\
  w_store (final (run_script (runtime ∅ upsert_db) ∅))
    !! "artifacts/default-app-id/public/data/knowledge_buckets/example_001" = None.
Proof. split; vm_compute; reflexivity. Qed.

(** C9.  Whenever the client is constructed, the console shows the seven
    banner lines and nothing else: the one call of [ingest_log_entry]
    prints neither of its two lines, and the summary line is not reached. *)
Theorem run_prints_banner_only (environ : gmap string string) (now : nat -> Datetime)
    (repr : PyVal -> string) (db : Db) (store : gmap string Dict) :
  w_stdout
    (final (run_script {| rt_environ := environ; rt_now := now; rt_repr := repr;
                          rt_import_firestore := None; rt_Client := Ok db |} store)) =
    banner environ /\
  w_store
    (final (run_script {| rt_environ := environ; rt_now := now; rt_repr := repr;
                          rt_import_firestore := None; rt_Client := Ok db |} store)) =
    store.
Proof.
  rewrite (run_script_client_constructed
             {| rt_environ := environ; rt_now := now; rt_repr := repr;
                rt_import_firestore := None; rt_Client := Ok db |}
             store db eq_refl).
  cbn [rt_environ]. now destruct (example_answer environ db store).
Qed.

(** * Further properties of the script *)

(** ** Strings *)

Lemma length_append (s1 s2 : string) :
  String.length (s1 +:+ s2) = (String.length s1 + String.length s2)%nat.
Proof.
  induction s1 as [|c s1 IH]; [reflexivity |].
  change (S (String.length (s1 +:+ s2)) = S (String.length s1 + String.length s2)).
  now rewrite IH.
Qed.

(** A common suffix cancels. *)
Lemma append_inj_suffix (s1 s2 suffix : string) :
  s1 +:+ suffix = s2 +:+ suffix -> s1 = s2.
Proof.
  revert s2. induction s1 as [|c s1 IH]; intros [|c' s2] Heq.
  - reflexivity.
  - apply (f_equal String.length) in Heq. rewrite !length_append in Heq.
    cbn in Heq. lia.
  - apply (f_equal String.length) in Heq. rewrite !length_append in Heq.
    cbn in Heq. lia.
  - change (String c (s1 +:+ suffix) = String c' (s2 +:+ suffix)) in Heq.
    injection Heq as -> Heq. f_equal. now apply IH.
Qed.

(** ** Configuration *)

(** X1.  Two environments that resolve to different app ids get different
    collection paths: the path keeps the app id apart from the fixed
    prefix and suffix around it. *)
Theorem COLLECTION_PATH_isolates (environ1 environ2 : gmap string string) :
  APP_ID environ1 <> APP_ID environ2 ->
  COLLECTION_PATH environ1 <> COLLECTION_PATH environ2.
Proof.
  intros Hne Hpath. apply Hne. unfold COLLECTION_PATH in Hpath.
  apply (inj (String.app "artifacts/")) in Hpath.
  now apply append_inj_suffix in Hpath.
Qed.

Lemma COLLECTION_PATH_isolates_witness :
  COLLECTION_PATH ∅ <> COLLECTION_PATH {["__app_id" := "tenant-7"]}.
Proof.
  apply (COLLECTION_PATH_isolates ∅ {["__app_id" := "tenant-7"]}).
  vm_compute. discriminate.
Defined.

(** ** get_firestore_client in the namespace of the module *)

(** X2.  When the import or the constructor raises an ImportError,
    [get_firestore_client] prints the two fixed lines of the hint, not the
    message of the exception, and raises SystemExit(1). *)
Theorem missing_library_hint (environ : gmap string string) (rt : Runtime)
    (msg : string) (w : World) :
  construction rt = Raise (ImportError msg) ->
  get_firestore_client (module_globals environ) rt w =
  (Raise (SystemExit 1),
   emit "Run: pip install google-cloud-firestore"
     (emit "ERROR: google-cloud-firestore not installed" w)).
Proof.
  intros Hc. unfold get_firestore_client.
  erewrite try_except_Raise by (rewrite try_body_outcome, Hc; reflexivity).
  cbn [is_ImportError]. do 2 run_print.
  apply (sys_exit_raises _ (sys_bound environ)).
Qed.

Lemma missing_library_hint_witness :
  get_firestore_client (module_globals ∅)
    (runtime_import_raises ∅ (ImportError "No module named 'google'")) (start ∅) =
  (Raise (SystemExit 1),
   emit "Run: pip install google-cloud-firestore"
     (emit "ERROR: google-cloud-firestore not installed" (start ∅))).
Proof.
  apply (missing_library_hint ∅
           (runtime_import_raises ∅ (ImportError "No module named 'google'"))
           "No module named 'google'" (start ∅)).
  reflexivity.
Defined.

(** X3.  When the import or the constructor raises an Exception that is not
    an ImportError, [get_firestore_client] prints one line, the fixed text
    followed by the text of the exception, and raises SystemExit(1). *)
Theorem client_failure_reported (environ : gmap string string) (rt : Runtime)
    (e : Exn) (w : World) :
  construction rt = Raise e ->
  is_ImportError e = false ->
  is_Exception e = true ->
  get_firestore_client (module_globals environ) rt w =
  (Raise (SystemExit 1),
   emit ("ERROR: Failed to initialize Firestore client: " +:+ exc_str e) w).
Proof.
  intros Hc Himport He. unfold get_firestore_client.
  erewrite try_except_Raise by (rewrite try_body_outcome, Hc; reflexivity).
  rewrite Himport, He. run_print.
  apply (sys_exit_raises _ (sys_bound environ)).
Qed.

Lemma client_failure_reported_witness :
  get_firestore_client (module_globals ∅)
    (runtime_Client_raises ∅
       (OtherException "DefaultCredentialsError" "credentials were not found"))
    (start ∅) =
  (Raise (SystemExit 1),
   emit "ERROR: Failed to initialize Firestore client: credentials were not found"
     (start ∅)).
Proof.
  apply (client_failure_reported ∅
           (runtime_Client_raises ∅
              (OtherException "DefaultCredentialsError" "credentials were not found"))
           (OtherException "DefaultCredentialsError" "credentials were not found")
           (start ∅)); reflexivity.
Defined.

(** X4.  [get_firestore_client] never lets an Exception out: it either
    returns the client the constructor gave, with nothing printed, or
    leaves by an exception that is no Exception (the SystemExit of its
    handlers, or one the body raised). *)
Theorem get_firestore_client_outcomes (environ : gmap string string) (rt : Runtime)
    (w : World) :
  match get_firestore_client (module_globals environ) rt w with
  | (Ok db, w') => construction rt = Ok db /\ w' = w
  | (Raise e, _) => is_Exception e = false
  end.
Proof.
  destruct (construction rt) as [db|e] eqn:Hc.
  - now rewrite (get_firestore_client_returns _ rt db w Hc).
  - destruct (is_Exception e) eqn:He.
    + now rewrite (get_firestore_client_exits _ rt (sys_bound environ) e w Hc He).
    + now rewrite (get_firestore_client_propagates _ rt e w Hc He).
Qed.

(** ** ingest_log_entry in the namespace of the module *)

(** X5.  A value the entry carries under message_id, whatever it is (the
    empty string, None, a number), is what line 42 gives and what the
    client is asked for at line 45, at any reading of the clock: the
    script makes nothing up and checks nothing.  What becomes of it is the
    answer of the client: the reference it builds, after which the
    NameError follows, or its refusal, which ends the call. *)
Theorem present_message_id_is_document_id (environ : gmap string string)
    (rt : Runtime) (db : Db) (entry_data : Dict) (v : PyVal) (w : World) :
  dict_get entry_data "message_id" = Some v ->
  fst (message_id_of (module_globals environ) rt entry_data w) = Ok v /\
  ingest_log_entry (module_globals environ) rt db entry_data w =
    match db_document db (PStr (COLLECTION_PATH environ)) v (tick w) with
    | Built doc_ref => (Raise (NameError "firestore"), tick (note_ref doc_ref (tick w)))
    | Refused class msg => (Raise (OtherException class msg), tick w)
    end.
Proof.
  intros Hget.
  assert (Hid : resolved_id rt entry_data w = v).
  { unfold resolved_id, dict_get_default. now rewrite Hget. }
  split.
  - rewrite (message_id_of_returns _ rt (datetime_bound environ)).
    cbn [fst]. now rewrite Hid.
  - rewrite ingest_log_entry_module. unfold answer. rewrite Hid.
    now destruct (db_document db _ v _).
Qed.

Lemma present_message_id_is_document_id_witness :
  fst (message_id_of (module_globals ∅) (runtime ∅ upsert_db)
         [("content", PStr "numbered"); ("message_id", PInt 7)] (start ∅)) = Ok (PInt 7) /\
  ingest_log_entry (module_globals ∅) (runtime ∅ upsert_db) upsert_db
    [("content", PStr "numbered"); ("message_id", PInt 7)] (start ∅) =
  (Raise (OtherException "TypeError" "sequence item: expected str instance"),
   tick (start ∅)).
Proof.
  generalize (present_message_id_is_document_id ∅ (runtime ∅ upsert_db) upsert_db
                [("content", PStr "numbered"); ("message_id", PInt 7)]
                (PInt 7) (start ∅) eq_refl).
  vm_compute. exact (fun H => H).
Defined.

(** X6.  The identifier made up for an entry without message_id comes from
    the clock alone: two such entries, whatever they hold, ingested when
    the clock shows the same timestamp get the same identifier, and with
    a client that answers alike in the two worlds the same document
    reference. *)
Theorem synthesized_id_ignores_entry (environ : gmap string string)
    (rt1 rt2 : Runtime) (e1 e2 : Dict) (w1 w2 : World) :
  dict_get e1 "message_id" = None ->
  dict_get e2 "message_id" = None ->
  dt_timestamp (rt_now rt1 (w_ticks w1)) = dt_timestamp (rt_now rt2 (w_ticks w2)) ->
  fst (message_id_of (module_globals environ) rt1 e1 w1) =
  fst (message_id_of (module_globals environ) rt2 e2 w2) /\
  forall db : Db,
    (forall id : PyVal,
       db_document db (PStr (COLLECTION_PATH environ)) id (tick w1) =
       db_document db (PStr (COLLECTION_PATH environ)) id (tick w2)) ->
    forall doc_ref : DocRef,
      answer rt1 db (PStr (COLLECTION_PATH environ)) e1 w1 = Built doc_ref ->
      last (w_refs (snd (ingest_log_entry (module_globals environ) rt1 db e1 w1))) =
        Some doc_ref /\
      last (w_refs (snd (ingest_log_entry (module_globals environ) rt2 db e2 w2))) =
        Some doc_ref.
Proof.
  intros Hget1 Hget2 Hclock.
  assert (Hid : resolved_id rt1 e1 w1 = resolved_id rt2 e2 w2).
  { unfold resolved_id, dict_get_default. now rewrite Hget1, Hget2, Hclock. }
  split.
  - rewrite !(message_id_of_returns _ _ (datetime_bound environ)).
    cbn [fst]. now rewrite Hid.
  - intros db Halike doc_ref Hanswer.
    assert (Hanswer2 : answer rt2 db (PStr (COLLECTION_PATH environ)) e2 w2 = Built doc_ref).
    { unfold answer in *. now rewrite <- Hid, <- Halike. }
    rewrite !ingest_log_entry_module, Hanswer, Hanswer2.
    cbn. now rewrite !last_snoc.
Qed.

Lemma synthesized_id_ignores_entry_witness :
  last (w_refs (snd (ingest_log_entry (module_globals ∅) (runtime ∅ upsert_db) upsert_db
                       [("content", PStr "disk full")] (start ∅)))) =
  last (w_refs (snd (ingest_log_entry (module_globals ∅) (runtime ∅ upsert_db) upsert_db
                       [("content", PStr "login failed"); ("vector", PList [PFloat "0.5"])]
                       (start ∅)))).
Proof.
  destruct (synthesized_id_ignores_entry ∅ (runtime ∅ upsert_db) (runtime ∅ upsert_db)
              [("content", PStr "disk full")]
              [("content", PStr "login failed"); ("vector", PList [PFloat "0.5"])]
              (start ∅) (start ∅) eq_refl eq_refl eq_refl) as [_ Hrefs].
  destruct (Hrefs upsert_db (fun _ => eq_refl)
              {| ref_collection := PStr (COLLECTION_PATH ∅);
                 ref_id := PStr "msg_1762257600.0" |} eq_refl) as [Hfirst Hsecond].
  now rewrite Hfirst, Hsecond.
Defined.

(** X7.  The try block of lines 62 to 68, run in the namespace of the
    module for any client, reference and payload: when it returns it has
    printed exactly one line and its result tells whether [set] returned;
    when it raises, the exception is the one [set] raised, it is no
    Exception and nothing was printed.  Either way the store is as [set]
    left it, no clock is read and no reference is built. *)
Theorem write_block_reports (environ : gmap string string) (rt : Runtime) (db : Db)
    (doc_ref : DocRef) (message_id : PyVal) (payload : Dict) (w : World) :
  match write_payload (module_globals environ) rt db doc_ref message_id payload w with
  | (Ok ok, w') =>
      (ok = true <-> fst (db_set db doc_ref payload (w_store w)) = Ok tt) /\
      (exists line : string, w_stdout w' = w_stdout w ++ [line]) /\
      w_store w' = snd (db_set db doc_ref payload (w_store w)) /\
      w_ticks w' = w_ticks w /\ w_refs w' = w_refs w
  | (Raise e, w') =>
      is_Exception e = false /\
      fst (db_set db doc_ref payload (w_store w)) = Raise e /\
      w_stdout w' = w_stdout w /\
      w_store w' = snd (db_set db doc_ref payload (w_store w)) /\
      w_ticks w' = w_ticks w /\ w_refs w' = w_refs w
  end.
Proof.
  destruct (db_set db doc_ref payload (w_store w)) as [[[]|e] store'] eqn:Hset.
  - rewrite (write_payload_returned _ rt _ (COLLECTION_PATH_bound environ)
               db doc_ref message_id payload w store' Hset).
    cbn. repeat split. eauto.
  - destruct (is_Exception e) eqn:He.
    + rewrite (write_payload_raised _ rt db doc_ref message_id payload w store' e Hset He).
      cbn. repeat split; try discriminate. eauto.
    + unfold write_payload.
      erewrite try_except_Raise
        by (erewrite bind_Raise by (unfold set; rewrite Hset; reflexivity); reflexivity).
      rewrite He. cbn. repeat split. exact He.
Qed.

(** X12.  In the namespace of the module the loop of lines 96 to 98 stops
    in its first entry: for any batch with a first entry, the call on that
    entry raises an Exception, and the loop ends by this exception in the
    world the call left, whatever follows the entry and whatever the count
    was. *)
Theorem loop_stops_at_first_entry (environ : gmap string string) (rt : Runtime)
    (db : Db) (entry_data : Dict) (rest : list Dict) (success_count : nat) (w : World) :
  exists (e : Exn) (w' : World),
    ingest_log_entry (module_globals environ) rt db entry_data w = (Raise e, w') /\
    ingest_each (module_globals environ) rt db (entry_data :: rest) success_count w =
      (Raise e, w') /\
    is_Exception e = true.
Proof.
  rewrite ingest_log_entry_module.
  rewrite (ingest_each_unbound _ rt (datetime_bound environ) _ _ _
             (USER_ID_bound environ) (APP_ID_bound environ)
             (COLLECTION_PATH_bound environ) (firestore_unbound environ)).
  destruct (answer rt db (PStr (COLLECTION_PATH environ)) entry_data w)
    as [doc_ref|class msg]; cbn; eexists _, _; repeat split.
Qed.

(** ** Every run of the script *)

Section EveryRun.
Variables (rt : Runtime) (store : gmap string Dict).

(** A SystemExit out of the import or the constructor goes through. *)
Lemma run_script_construction_exits (code : Z) :
  construction rt = Raise (SystemExit code) ->
  run_script rt store =
  {| exit_status := exit_code code; uncaught := None;
     final := {| w_ticks := 0; w_stdout := banner (rt_environ rt);
                 w_refs := []; w_store := store |} |}.
Proof.
  intros Hc. unfold run_script, main. rewrite main_prints_banner.
  erewrite bind_Raise
    by (apply (get_firestore_client_propagates _ rt (SystemExit code)); [exact Hc | reflexivity]).
  reflexivity.
Qed.

(** The ways a run goes, by what the construction comes to and by what
    the client answers for the example entry. *)
Lemma run_script_cases :
  run_script rt store =
  match construction rt with
  | Ok db =>
      match example_answer (rt_environ rt) db store with
      | Built doc_ref =>
          {| exit_status := 1; uncaught := Some (NameError "firestore");
             final := {| w_ticks := 2; w_stdout := banner (rt_environ rt);
                         w_refs := [doc_ref]; w_store := store |} |}
      | Refused class msg =>
          {| exit_status := 1; uncaught := Some (OtherException class msg);
             final := {| w_ticks := 1; w_stdout := banner (rt_environ rt);
                         w_refs := []; w_store := store |} |}
      end
  | Raise e =>
      {| exit_status := status_after (Raise e); uncaught := None;
         final := {| w_ticks := 0;
                     w_stdout := banner (rt_environ rt) ++ console_after (Raise e);
                     w_refs := []; w_store := store |} |}
  end.
Proof.
  destruct (construction rt) as [db|e] eqn:Hc.
  - apply (run_script_client_constructed rt store db Hc).
  - destruct (is_Exception e) eqn:He.
    + rewrite (run_script_construction_fails rt store e Hc He).
      cbn. rewrite He. now destruct e.
    + destruct e; try discriminate.
      rewrite (run_script_construction_exits code Hc).
      unfold console_after. cbn [is_Exception]. now rewrite app_nil_r.
Qed.

(** X8.  A run in which the construction of the client settles (it
    returns a client, or raises an Exception) ends with status 1: by the
    sys.exit(1) of the handlers, by the uncaught NameError, or by the
    uncaught refusal of the client at line 45. *)
Theorem run_script_exit_status :
  settles (construction rt) = true ->
  exit_status (run_script rt store) = 1.
Proof.
  intros Hsettles. rewrite run_script_cases.
  destruct (construction rt) as [db|e].
  - now destruct (example_answer (rt_environ rt) db store).
  - cbn in Hsettles. now destruct e.
Qed.

(** X9.  The console of a run is the seven banner lines, followed by the
    diagnostic of [get_firestore_client] when the construction raised an
    Exception, and by nothing otherwise: no run prints a line for an
    entry or the summary. *)
Theorem run_script_console :
  w_stdout (final (run_script rt store)) =
  banner (rt_environ rt) ++ console_after (construction rt).
Proof.
  rewrite run_script_cases.
  destruct (construction rt) as [db|e]; [| reflexivity].
  destruct (example_answer (rt_environ rt) db store);
    unfold console_after; cbn [final w_stdout]; now rewrite app_nil_r.
Qed.

(** X10.  No run changes the store.  A run reads the clock and asks the
    client for a reference only after the client was constructed: when
    the client builds the reference of the example entry, the clock was
    read twice and that reference is the only one; when it refuses, the
    clock was read once and there is none; when the construction raised,
    the clock was not read. *)
Theorem run_script_effects :
  w_store (final (run_script rt store)) = store /\
  match construction rt with
  | Ok db =>
      match example_answer (rt_environ rt) db store with
      | Built doc_ref =>
          w_ticks (final (run_script rt store)) = 2%nat /\
          w_refs (final (run_script rt store)) = [doc_ref]
      | Refused _ _ =>
          w_ticks (final (run_script rt store)) = 1%nat /\
          w_refs (final (run_script rt store)) = []
      end
  | Raise _ =>
      w_ticks (final (run_script rt store)) = 0%nat /\
      w_refs (final (run_script rt store)) = []
  end.
Proof.
  rewrite run_script_cases.
  destruct (construction rt) as [db|e]; [| now split].
  now destruct (example_answer (rt_environ rt) db store).
Qed.

(** X11.  [main] never returns: whatever the runtime does, it leaves by an
    exception, so the statements after the loop are never reached.  The
    exception is the NameError of [ingest_log_entry] when the client
    builds the reference of the example entry, the refusal of the client
    when it does not, SystemExit(1) when the construction raised an
    Exception, and what the construction raised otherwise. *)
Theorem main_never_returns :
  exists w' : World,
    main (module_globals (rt_environ rt)) rt (start store) =
    (Raise
       match construction rt with
       | Ok db =>
           match example_answer (rt_environ rt) db store with
           | Built _ => NameError "firestore"
           | Refused class msg => OtherException class msg
           end
       | Raise e => if is_Exception e then SystemExit 1 else e
       end,
     w').
Proof.
  unfold main. rewrite main_prints_banner.
  destruct (construction rt) as [db|e] eqn:Hc.
  - erewrite bind_Ok by (apply (get_firestore_client_returns _ rt db _ Hc)).
    unfold example_entries. unfold bind at 1.
    rewrite (ingest_each_unbound _ rt (datetime_bound (rt_environ rt)) _ _ _
               (USER_ID_bound (rt_environ rt)) (APP_ID_bound (rt_environ rt))
               (COLLECTION_PATH_bound (rt_environ rt))
               (firestore_unbound (rt_environ rt))).
    unfold answer, example_answer, unbound_outcome.
    change (resolved_id rt _ _) with (PStr "example_001").
    destruct (db_document db _ _ _); eauto.
  - destruct (is_Exception e) eqn:He.
    + erewrite bind_Raise
        by (apply (get_firestore_client_exits _ rt (sys_bound (rt_environ rt)) e);
            assumption).
      eauto.
    + erewrite bind_Raise
        by (apply (get_firestore_client_propagates _ rt e); assumption).
      eauto.
Qed.
End EveryRun.

Lemma run_script_exit_status_witness :
  exit_status
    (run_script
       (runtime_Client_raises ∅
          (OtherException "DefaultCredentialsError" "credentials were not found"))
       ∅) = 1.
Proof.
  apply (run_script_exit_status
           (runtime_Client_raises ∅
              (OtherException "DefaultCredentialsError" "credentials were not found"))
           ∅).
  reflexivity.
Defined.

(** ** The client is never asked to write *)

(** X13.  In the namespace of the module [ingest_log_entry] never calls
    [set]: two clients that answer line 45 alike give the same outcome and
    the same effects, whatever their [set] would do with the write. *)
Theorem ingest_log_entry_ignores_client (environ : gmap string string) (rt : Runtime)
    (db1 db2 : Db) (entry_data : Dict) (w : World) :
  answer rt db1 (PStr (COLLECTION_PATH environ)) entry_data w =
  answer rt db2 (PStr (COLLECTION_PATH environ)) entry_data w ->
  ingest_log_entry (module_globals environ) rt db1 entry_data w =
  ingest_log_entry (module_globals environ) rt db2 entry_data w.
Proof. intros Halike. now rewrite !ingest_log_entry_module, Halike. Qed.

Lemma ingest_log_entry_ignores_client_witness :
  ingest_log_entry (module_globals ∅) (runtime ∅ upsert_db) upsert_db
    [("message_id", PStr "m1"); ("content", PStr "disk full")] (start ∅) =
  ingest_log_entry (module_globals ∅) (runtime ∅ upsert_db)
    (failing_db (OtherException "PermissionDenied" "403 insufficient permissions"))
    [("message_id", PStr "m1"); ("content", PStr "disk full")] (start ∅).
Proof.
  apply (ingest_log_entry_ignores_client ∅ (runtime ∅ upsert_db) upsert_db
           (failing_db (OtherException "PermissionDenied" "403 insufficient permissions"))
           [("message_id", PStr "m1"); ("content", PStr "disk full")] (start ∅)).
  reflexivity.
Defined.
